(** * pib_eval.c: the destructor-override check exported to the WebAssembly host

    The translation unit [wasm-build/php/docker-build-files/pib_eval.c]
    exports one function,

      bool pib_init(zend_object *object)
      {
          bool a = object->handlers->dtor_obj != zend_objects_destroy_object;
          return a;
      }

    This development embeds it over an explicit heap of objects and handler
    tables, with the loads it performs recorded in a trace and an undefined
    outcome for a dereference of a null or dangling pointer. *)

From Stdlib Require Import ZArith List Bool.
From stdpp Require Import gmap.
Import ListNotations.

Open Scope Z_scope.

(** ** Pointers *)

(** A data pointer is an address of the module's linear memory, a function
    pointer an index of its function table; both are compared as integers. *)
Definition ptr := Z.
Definition fn_ptr := Z.

Definition NULL : Z := 0.

(** The C operator [!=] on two pointers of the same type. *)
Definition ptr_ne (p q : Z) : bool := negb (p =? q).

Module Zend.

Section Runtime.

(** The two structures are declared by the engine's headers ([zend.h] and
    the files it includes), which this translation unit only includes.
    [pib_init] names one member of each; the members it does not name are
    kept as a payload of an arbitrary type. *)
Variable object_members : Type.
Variable handler_slots : Type.

(** [struct _zend_object_handlers]: the table of handlers of a class of
    objects.  [dtor_obj] is its destruction-handler slot. *)
Record zend_object_handlers := mk_handlers {
  dtor_obj : fn_ptr;
  other_slots : handler_slots
}.

(** [struct _zend_object]: [handlers] points to a table, which several
    objects may share. *)
Record zend_object := mk_object {
  handlers : ptr;
  other_members : object_members
}.

(** The part of the runtime's memory the function can reach: the live
    objects and the handler tables, each by address. *)
Record heap := mk_heap {
  objects : gmap Z zend_object;
  handler_tables : gmap Z zend_object_handlers
}.

(** The address of the engine's standard destruction handler, a link-time
    constant of the runtime. *)
Variable zend_objects_destroy_object : fn_ptr.

(** What the code behind a function pointer does to the heap when it is
    called on an object; [None] when the call is undefined. *)
Variable handler_code : fn_ptr -> ptr -> heap -> option heap.

(** ** Memory accesses and calls, as events *)

Inductive location :=
| ObjHandlers (object : ptr)      (* object->handlers *)
| HandlersDtorObj (table : ptr).  (* table->dtor_obj *)

Inductive event :=
| EvLoad (l : location)
| EvCall (f : fn_ptr) (object : ptr).

Definition is_load (e : event) : bool :=
  match e with EvLoad _ => true | EvCall _ _ => false end.

(** ** Dereferences *)

(** [*p] for a [zend_object *]: undefined at the null pointer and at an
    address that holds no live object. *)
Definition deref_object (m : heap) (p : ptr) : option zend_object :=
  if decide (p = NULL) then None else objects m !! p.

Definition deref_handlers (m : heap) (p : ptr) : option zend_object_handlers :=
  if decide (p = NULL) then None else handler_tables m !! p.

(** ** Computations: heap passing, a trace, and undefined behaviour *)

Definition M (A : Type) : Type := heap -> option (A * heap * list event).

Definition ret {A} (a : A) : M A := fun m => Some (a, m, []).

Definition bind {A B} (c : M A) (k : A -> M B) : M B := fun m =>
  match c m with
  | None => None
  | Some (a, m1, t1) =>
      match k a m1 with
      | None => None
      | Some (b, m2, t2) => Some (b, m2, t1 ++ t2)
      end
  end.

Notation "x <- c ;; k" := (bind c (fun x => k))
  (at level 100, c at next level, right associativity).

(** [object->handlers] *)
Definition load_handlers (object : ptr) : M ptr := fun m =>
  match deref_object m object with
  | None => None
  | Some o => Some (handlers o, m, [EvLoad (ObjHandlers object)])
  end.

(** [table->dtor_obj] *)
Definition load_dtor_obj (table : ptr) : M fn_ptr := fun m =>
  match deref_handlers m table with
  | None => None
  | Some t => Some (dtor_obj t, m, [EvLoad (HandlersDtorObj table)])
  end.

(** [f(object)] for a handler [f]: the one primitive that runs handler
    code. *)
Definition call_handler (f : fn_ptr) (object : ptr) : M unit := fun m =>
  match handler_code f object m with
  | None => None
  | Some m' => Some (tt, m', [EvCall f object])
  end.

(** ** The exported function *)

Definition pib_init (object : ptr) : M bool :=
  table <- load_handlers object ;;
  dtor <- load_dtor_obj table ;;
  let a := ptr_ne dtor zend_objects_destroy_object in
  ret a.

(** Two calls in a row on the same handle, as a host does when it repeats the
    check; the second call runs on the heap the first one leaves. *)
Definition pib_init_twice (object : ptr) : M (bool * bool) :=
  a1 <- pib_init object ;;
  a2 <- pib_init object ;;
  ret (a1, a2).

(** ** Observations of an outcome *)

Definition result_of {A} (r : option (A * heap * list event)) : option A :=
  match r with Some (a, _, _) => Some a | None => None end.

Definition heap_of {A} (r : option (A * heap * list event)) : option heap :=
  match r with Some (_, m, _) => Some m | None => None end.

Definition trace_of {A} (r : option (A * heap * list event)) : option (list event) :=
  match r with Some (_, _, t) => Some t | None => None end.

(** The loads of a trace. *)
Definition loads (tr : list event) : list event := List.filter is_load tr.

(** The caller's obligation: [object] is a non-null pointer to a live object
    [o] whose [handlers] member is a non-null pointer to a table [t]. *)
Definition valid_handle (m : heap) (object : ptr)
    (o : zend_object) (t : zend_object_handlers) : Prop :=
  deref_object m object = Some o /\ deref_handlers m (handlers o) = Some t.

End Runtime.

Arguments mk_handlers {handler_slots} _ _.
Arguments dtor_obj {handler_slots} _.
Arguments other_slots {handler_slots} _.
Arguments mk_object {object_members} _ _.
Arguments handlers {object_members} _.
Arguments other_members {object_members} _.
Arguments mk_heap {object_members handler_slots} _ _.
Arguments objects {object_members handler_slots} _.
Arguments handler_tables {object_members handler_slots} _.
Arguments deref_object {object_members handler_slots} _ _.
Arguments deref_handlers {object_members handler_slots} _ _.
Arguments ret {object_members handler_slots A} _ _.
Arguments bind {object_members handler_slots A B} _ _ _.
Arguments load_handlers {object_members handler_slots} _ _.
Arguments load_dtor_obj {object_members handler_slots} _ _.
Arguments call_handler {object_members handler_slots} _ _ _ _.
Arguments pib_init {object_members handler_slots} _ _ _.
Arguments pib_init_twice {object_members handler_slots} _ _ _.
Arguments result_of {object_members handler_slots A} _.
Arguments heap_of {object_members handler_slots A} _.
Arguments trace_of {object_members handler_slots A} _.
Arguments valid_handle {object_members handler_slots} _ _ _ _.

(** ** A concrete runtime

    Five objects and four handler tables.  The unnamed members of an object
    are summarised by its handle number, those of a table by the address of
    its [free_obj] handler.  Objects [O1] and [O4] share the standard table;
    [O2] has a table with a custom destruction handler; the table of [O3] has
    an empty destruction slot; the table of [O5] keeps the standard
    destruction handler next to a [free_obj] handler of its own. *)

Definition std_dtor : fn_ptr := 17.
Definition custom_dtor : fn_ptr := 23.

Definition T_std : ptr := 4096.
Definition T_custom : ptr := 4160.
Definition T_nodtor : ptr := 4224.
Definition T_alt : ptr := 4288.

Definition O1 : ptr := 65536.
Definition O2 : ptr := 65600.
Definition O3 : ptr := 65664.
Definition O4 : ptr := 65728.
Definition O5 : ptr := 65792.

Definition tbl_std : zend_object_handlers Z := mk_handlers std_dtor 11.
Definition tbl_custom : zend_object_handlers Z := mk_handlers custom_dtor 11.
Definition tbl_nodtor : zend_object_handlers Z := mk_handlers NULL 12.
Definition tbl_alt : zend_object_handlers Z := mk_handlers std_dtor 29.

Definition obj1 : zend_object Z := mk_object T_std 1.
Definition obj2 : zend_object Z := mk_object T_custom 2.
Definition obj3 : zend_object Z := mk_object T_nodtor 3.
Definition obj4 : zend_object Z := mk_object T_std 4.
Definition obj5 : zend_object Z := mk_object T_alt 5.

Definition heap0 : heap Z Z :=
  mk_heap
    (<[O1 := obj1]> (<[O2 := obj2]> (<[O3 := obj3]> (<[O4 := obj4]>
      (<[O5 := obj5]> ∅)))))
    (<[T_std := tbl_std]> (<[T_custom := tbl_custom]> (<[T_nodtor := tbl_nodtor]>
      (<[T_alt := tbl_alt]> ∅)))).

(** The same runtime later on: [O2] has been released, [O3] stored anew, the
    handle number of [O1] and the [free_obj] handler of the standard table
    rewritten, and the custom table overwritten.  [O1] still points to the
    standard table, whose [dtor_obj] slot is as before. *)
Definition heap1 : heap Z Z :=
  mk_heap
    (<[O1 := mk_object T_std 7]> (<[O3 := obj5]> (delete O2 (objects heap0))))
    (<[T_std := mk_handlers std_dtor 31]> (<[T_custom := tbl_nodtor]>
      (handler_tables heap0))).

(** A runtime in which every handler releases the object it is called on. *)
Definition release_code (f : fn_ptr) (object : ptr) (m : heap Z Z) : option (heap Z Z) :=
  match deref_object m object with
  | None => None
  | Some _ => Some (mk_heap (delete object (objects m)) (handler_tables m))
  end.

(** A handle of the concrete runtime is checked valid by evaluating the two
    dereferences. *)
Ltac handle_valid := split; vm_compute; reflexivity.

(** ** Pointer comparison *)

Lemma ptr_ne_true p q : ptr_ne p q = true <-> p <> q.
Proof.
  unfold ptr_ne. rewrite negb_true_iff. apply Z.eqb_neq.
Qed.

Lemma ptr_ne_false p q : ptr_ne p q = false <-> p = q.
Proof.
  unfold ptr_ne. rewrite negb_false_iff. apply Z.eqb_eq.
Qed.

Section Properties.

Context {object_members handler_slots : Type}.
Variable zend_objects_destroy_object : fn_ptr.

Implicit Types (m : heap object_members handler_slots) (object : ptr).
Implicit Types (o : zend_object object_members) (t : zend_object_handlers handler_slots).

(** ** The outcome on a valid handle *)

Lemma pib_init_run m object o t :
  valid_handle m object o t ->
  pib_init zend_objects_destroy_object object m =
    Some (ptr_ne (dtor_obj t) zend_objects_destroy_object, m,
          [EvLoad (ObjHandlers object); EvLoad (HandlersDtorObj (handlers o))]).
Proof.
  intros [Ho Ht].
  unfold pib_init, bind, load_handlers, load_dtor_obj, ret.
  rewrite Ho, Ht. reflexivity.
Qed.




Lemma valid_handle_nonnull m object o t :
  valid_handle m object o t -> object <> NULL /\ handlers o <> NULL.
Proof.
  intros [Ho Ht]. unfold deref_object, deref_handlers in *.
  destruct (decide (object = NULL)); [discriminate|].
  destruct (decide (handlers o = NULL)); [discriminate|].
  split; assumption.
Qed.

(** ** Calls leave a mark

    The one primitive that runs handler code records it, so a trace without
    a call event is a run that called nothing. *)

Lemma call_handler_trace (code : fn_ptr -> ptr -> heap object_members handler_slots
                                 -> option (heap object_members handler_slots))
    f object m u m' tr :
  call_handler code f object m = Some (u, m', tr) -> In (EvCall f object) tr.
Proof.
  unfold call_handler. destruct (code f object m); [|discriminate].
  intros [= _ _ <-]. now left.
Qed.

(** ** The contract of [pib_init] *)

(** C1: on a valid, non-null handle the call returns the value of the
    comparison [dtor_obj != zend_objects_destroy_object]; it returns [true] if
    and only if the destruction handler of the object's table is not the
    standard handler. *)
Theorem pib_init_true_iff_dtor_differs m object o t :
  valid_handle m object o t ->
  result_of (pib_init zend_objects_destroy_object object m)
    = Some (ptr_ne (dtor_obj t) zend_objects_destroy_object)
  /\ (result_of (pib_init zend_objects_destroy_object object m) = Some true
      <-> dtor_obj t <> zend_objects_destroy_object).
Proof.
  intros Hv. rewrite (pib_init_run _ _ _ _ Hv). cbn [result_of].
  split; [reflexivity|].
  rewrite <- ptr_ne_true. split; [intros [= E]; exact E | intros ->; reflexivity].
Qed.

(** C2: an object whose destruction handler is the standard handler makes the
    call return [false]. *)
Theorem pib_init_default_handler_false m object o t :
  valid_handle m object o t ->
  dtor_obj t = zend_objects_destroy_object ->
  result_of (pib_init zend_objects_destroy_object object m) = Some false.
Proof.
  intros Hv Hd. rewrite (pib_init_run _ _ _ _ Hv). cbn [result_of].
  f_equal. now apply ptr_ne_false.
Qed.

(** C3: an object whose destruction handler is any other handler makes the
    call return [true]. *)
Theorem pib_init_overridden_handler_true m object o t :
  valid_handle m object o t ->
  dtor_obj t <> zend_objects_destroy_object ->
  result_of (pib_init zend_objects_destroy_object object m) = Some true.
Proof.
  intros Hv Hd. rewrite (pib_init_run _ _ _ _ Hv). cbn [result_of].
  f_equal. now apply ptr_ne_true.
Qed.

(** C4: repeated calls on the same unmodified object return the same
    boolean.  The call on a valid handle returns some [a]; a second call run
    on the heap the first one leaves returns [a] again; and so does a call on
    any later heap, whatever else has changed in it, in which the object still
    has the same handlers table and that table the same [dtor_obj] slot. *)
Theorem pib_init_repeatable m object o t :
  valid_handle m object o t ->
  exists a,
    result_of (pib_init zend_objects_destroy_object object m) = Some a
    /\ result_of (pib_init_twice zend_objects_destroy_object object m) = Some (a, a)
    /\ (forall m2 o2 t2,
          valid_handle m2 object o2 t2 ->
          handlers o2 = handlers o ->
          dtor_obj t2 = dtor_obj t ->
          result_of (pib_init zend_objects_destroy_object object m2) = Some a).
Proof.
  intros Hv. exists (ptr_ne (dtor_obj t) zend_objects_destroy_object).
  split; [|split].
  - rewrite (pib_init_run _ _ _ _ Hv). reflexivity.
  - unfold pib_init_twice, bind.
    rewrite (pib_init_run _ _ _ _ Hv), (pib_init_run _ _ _ _ Hv).
    reflexivity.
  - intros m2 o2 t2 Hv2 _ Hd.
    rewrite (pib_init_run _ _ _ _ Hv2). cbn [result_of].
    rewrite Hd. reflexivity.
Qed.

(** C5: the call returns a boolean and leaves the heap as it found it: the
    object, its table and every other object and table are unchanged, and the
    trace holds loads only. *)
Theorem pib_init_no_side_effect m object o t :
  valid_handle m object o t ->
  exists a tr,
    pib_init zend_objects_destroy_object object m = Some (a, m, tr)
    /\ Forall (fun e => is_load e = true) tr.
Proof.
  intros Hv. rewrite (pib_init_run _ _ _ _ Hv).
  eexists _, _. split; [reflexivity|].
  repeat constructor.
Qed.


(** C7, as amended: the call performs exactly two loads and nothing else,
    first the [handlers] member of the object, then the [dtor_obj] slot of the
    table that member points to; the heap is left unchanged. *)
Theorem pib_init_two_loads m object o t :
  valid_handle m object o t ->
  trace_of (pib_init zend_objects_destroy_object object m)
    = Some [EvLoad (ObjHandlers object); EvLoad (HandlersDtorObj (handlers o))]
  /\ heap_of (pib_init zend_objects_destroy_object object m) = Some m.
Proof.
  intros Hv. rewrite (pib_init_run _ _ _ _ Hv). split; reflexivity.
Qed.

(** C8: a table whose [dtor_obj] slot is null, the standard handler being a
    function and so not null, makes the call return [true]. *)
Theorem pib_init_null_dtor_true m object o t :
  valid_handle m object o t ->
  dtor_obj t = NULL ->
  zend_objects_destroy_object <> NULL ->
  result_of (pib_init zend_objects_destroy_object object m) = Some true.
Proof.
  intros Hv Hd Hstd. rewrite (pib_init_run _ _ _ _ Hv). cbn [result_of].
  f_equal. apply ptr_ne_true. rewrite Hd. intros E. apply Hstd. now symmetry.
Qed.

(** C9: the result depends on the [dtor_obj] slot only: two valid handles, in
    the same heap or in two heaps, whose tables agree on [dtor_obj] give the
    same result, whatever the other members of the objects and tables. *)
Theorem pib_init_noninterference m1 m2 object1 object2 o1 o2 t1 t2 :
  valid_handle m1 object1 o1 t1 ->
  valid_handle m2 object2 o2 t2 ->
  dtor_obj t1 = dtor_obj t2 ->
  exists a,
    result_of (pib_init zend_objects_destroy_object object1 m1) = Some a
    /\ result_of (pib_init zend_objects_destroy_object object2 m2) = Some a.
Proof.
  intros Hv1 Hv2 Hd.
  rewrite (pib_init_run _ _ _ _ Hv1), (pib_init_run _ _ _ _ Hv2), Hd.
  eexists. split; reflexivity.
Qed.

(** C10: the call runs no handler: its trace holds no call event, for the
    object's destruction handler, the standard handler or any other function,
    and the object is still live afterwards. *)
Theorem pib_init_never_calls m object o t :
  valid_handle m object o t ->
  exists a m' tr,
    pib_init zend_objects_destroy_object object m = Some (a, m', tr)
    /\ (forall f p, ~ In (EvCall f p) tr)
    /\ deref_object m' object = Some o.
Proof.
  intros Hv. rewrite (pib_init_run _ _ _ _ Hv).
  eexists _, _, _. split; [reflexivity|]. split.
  - intros f p [E|[E|[]]]; discriminate E.
  - apply Hv.
Qed.

End Properties.

(** ** The concrete runtime, checked *)

Example O1_valid : valid_handle heap0 O1 obj1 tbl_std.
Proof. handle_valid. Qed.

Example O4_shares_table : handlers obj4 = handlers obj1.
Proof. reflexivity. Qed.

(** Scenario of the specification: [O1] keeps the default handler, [O2] has a
    custom one. *)
Example scenario_O1 : result_of (pib_init std_dtor O1 heap0) = Some false.
Proof. vm_compute. reflexivity. Qed.

Example scenario_O2 : result_of (pib_init std_dtor O2 heap0) = Some true.
Proof. vm_compute. reflexivity. Qed.

(** A dangling handle and a null [handlers] member are undefined. *)
Example dangling_handle : pib_init std_dtor 12345 heap0 = None.
Proof. vm_compute. reflexivity. Qed.

Example null_handlers_member :
  pib_init std_dtor O1 (mk_heap (<[O1 := mk_object NULL 1]> ∅) (handler_tables heap0)) = None.
Proof. vm_compute. reflexivity. Qed.

(** Calling the destruction handler, which [pib_init] does not do, would
    release the object. *)
Example calling_releases_O1 :
  exists m', heap_of (call_handler release_code std_dtor O1 heap0) = Some m'
             /\ deref_object m' O1 = None.
Proof. eexists. split; [reflexivity | vm_compute; reflexivity]. Qed.

(** ** Instances of the theorems on the concrete runtime *)

Lemma pib_init_true_iff_dtor_differs_witness :
  valid_handle heap0 O2 obj2 tbl_custom
  /\ result_of (pib_init std_dtor O2 heap0) = Some (ptr_ne (dtor_obj tbl_custom) std_dtor)
  /\ (result_of (pib_init std_dtor O2 heap0) = Some true
      <-> dtor_obj tbl_custom <> std_dtor).
Proof.
  assert (Hv : valid_handle heap0 O2 obj2 tbl_custom) by handle_valid.
  split; [exact Hv|].
  exact (pib_init_true_iff_dtor_differs std_dtor heap0 O2 obj2 tbl_custom Hv).
Defined.

Lemma pib_init_default_handler_false_witness :
  valid_handle heap0 O1 obj1 tbl_std
  /\ dtor_obj tbl_std = std_dtor
  /\ result_of (pib_init std_dtor O1 heap0) = Some false.
Proof.
  assert (Hv : valid_handle heap0 O1 obj1 tbl_std) by handle_valid.
  split; [exact Hv | split; [reflexivity|]].
  exact (pib_init_default_handler_false std_dtor heap0 O1 obj1 tbl_std Hv eq_refl).
Defined.

Lemma pib_init_overridden_handler_true_witness :
  valid_handle heap0 O2 obj2 tbl_custom
  /\ dtor_obj tbl_custom <> std_dtor
  /\ result_of (pib_init std_dtor O2 heap0) = Some true.
Proof.
  assert (Hv : valid_handle heap0 O2 obj2 tbl_custom) by handle_valid.
  assert (Hd : dtor_obj tbl_custom <> std_dtor) by (vm_compute; discriminate).
  split; [exact Hv | split; [exact Hd|]].
  exact (pib_init_overridden_handler_true std_dtor heap0 O2 obj2 tbl_custom Hv Hd).
Defined.

Lemma pib_init_repeatable_witness :
  valid_handle heap0 O1 obj1 tbl_std
  /\ valid_handle heap1 O1 (mk_object T_std 7) (mk_handlers std_dtor 31)
  /\ exists a,
       result_of (pib_init std_dtor O1 heap0) = Some a
       /\ result_of (pib_init_twice std_dtor O1 heap0) = Some (a, a)
       /\ result_of (pib_init std_dtor O1 heap1) = Some a.
Proof.
  assert (Hv : valid_handle heap0 O1 obj1 tbl_std) by handle_valid.
  assert (Hv1 : valid_handle heap1 O1 (mk_object T_std 7) (mk_handlers std_dtor 31))
    by handle_valid.
  split; [exact Hv | split; [exact Hv1|]].
  destruct (pib_init_repeatable std_dtor heap0 O1 obj1 tbl_std Hv)
    as (a & Hfirst & Htwice & Hlater).
  exists a. split; [exact Hfirst | split; [exact Htwice|]].
  exact (Hlater heap1 (mk_object T_std 7) (mk_handlers std_dtor 31) Hv1 eq_refl eq_refl).
Defined.

Lemma pib_init_no_side_effect_witness :
  valid_handle heap0 O4 obj4 tbl_std
  /\ exists a tr,
       pib_init std_dtor O4 heap0 = Some (a, heap0, tr)
       /\ Forall (fun e => is_load e = true) tr.
Proof.
  assert (Hv : valid_handle heap0 O4 obj4 tbl_std) by handle_valid.
  split; [exact Hv|].
  exact (pib_init_no_side_effect std_dtor heap0 O4 obj4 tbl_std Hv).
Defined.


Lemma pib_init_two_loads_witness :
  valid_handle heap0 O1 obj1 tbl_std
  /\ trace_of (pib_init std_dtor O1 heap0)
       = Some [EvLoad (ObjHandlers O1); EvLoad (HandlersDtorObj T_std)]
  /\ heap_of (pib_init std_dtor O1 heap0) = Some heap0.
Proof.
  assert (Hv : valid_handle heap0 O1 obj1 tbl_std) by handle_valid.
  split; [exact Hv|].
  exact (pib_init_two_loads std_dtor heap0 O1 obj1 tbl_std Hv).
Defined.

Lemma pib_init_null_dtor_true_witness :
  valid_handle heap0 O3 obj3 tbl_nodtor
  /\ dtor_obj tbl_nodtor = NULL
  /\ std_dtor <> NULL
  /\ result_of (pib_init std_dtor O3 heap0) = Some true.
Proof.
  assert (Hv : valid_handle heap0 O3 obj3 tbl_nodtor) by handle_valid.
  assert (Hstd : std_dtor <> NULL) by (vm_compute; discriminate).
  split; [exact Hv | split; [reflexivity | split; [exact Hstd|]]].
  exact (pib_init_null_dtor_true std_dtor heap0 O3 obj3 tbl_nodtor Hv eq_refl Hstd).
Defined.

Lemma pib_init_noninterference_witness :
  valid_handle heap0 O1 obj1 tbl_std
  /\ valid_handle heap0 O5 obj5 tbl_alt
  /\ dtor_obj tbl_std = dtor_obj tbl_alt
  /\ other_slots tbl_std <> other_slots tbl_alt
  /\ exists a,
       result_of (pib_init std_dtor O1 heap0) = Some a
       /\ result_of (pib_init std_dtor O5 heap0) = Some a.
Proof.
  assert (Hv1 : valid_handle heap0 O1 obj1 tbl_std) by handle_valid.
  assert (Hv5 : valid_handle heap0 O5 obj5 tbl_alt) by handle_valid.
  split; [exact Hv1 | split; [exact Hv5 | split; [reflexivity|]]].
  split; [vm_compute; discriminate|].
  exact (pib_init_noninterference std_dtor heap0 heap0 O1 O5 obj1 obj5 tbl_std tbl_alt
           Hv1 Hv5 eq_refl).
Defined.

Lemma pib_init_never_calls_witness :
  valid_handle heap0 O2 obj2 tbl_custom
  /\ exists a m' tr,
       pib_init std_dtor O2 heap0 = Some (a, m', tr)
       /\ (forall f p, ~ In (EvCall f p) tr)
       /\ deref_object m' O2 = Some obj2.
Proof.
  assert (Hv : valid_handle heap0 O2 obj2 tbl_custom) by handle_valid.
  split; [exact Hv|].
  exact (pib_init_never_calls std_dtor heap0 O2 obj2 tbl_custom Hv).
Defined.

(** C7, as stated, fails: on [O1] the call performs two loads, not one, and
    one of them reads a member of the object itself, its [handlers]
    pointer. *)
Lemma pib_init_single_read_cex :
  exists tr,
    trace_of (pib_init std_dtor O1 heap0) = Some tr
    /\ length (loads tr) <> 1%nat
    /\ In (EvLoad (ObjHandlers O1)) tr.
Proof.
  exists [EvLoad (ObjHandlers O1); EvLoad (HandlersDtorObj T_std)].
  split; [vm_compute; reflexivity|].
  split; [cbn; discriminate | now left].
Qed.

(** ** The check against a changing heap

    [pib_init] reads two cells, the object's and its table's.  What the
    runtime does to the rest of the heap between two checks is invisible to
    it; what it does to either cell is seen by the next check, for every
    object that reaches the cell. *)

Section Frame.

Context {object_members handler_slots : Type}.
Variable zend_objects_destroy_object : fn_ptr.

Implicit Types (m : heap object_members handler_slots) (object p q : ptr).
Implicit Types (o : zend_object object_members) (t : zend_object_handlers handler_slots).

Lemma deref_object_agree m m' object :
  objects m !! object = objects m' !! object ->
  deref_object m object = deref_object m' object.
Proof.
  intros E. unfold deref_object. destruct (decide (object = NULL)); [reflexivity | exact E].
Qed.

Lemma deref_handlers_agree m m' p :
  handler_tables m !! p = handler_tables m' !! p ->
  deref_handlers m p = deref_handlers m' p.
Proof.
  intros E. unfold deref_handlers. destruct (decide (p = NULL)); [reflexivity | exact E].
Qed.

Lemma deref_object_lookup m object o :
  deref_object m object = Some o -> objects m !! object = Some o.
Proof.
  unfold deref_object. destruct (decide (object = NULL)); [discriminate | trivial].
Qed.

(** X1: the outcome of the call, with its trace and its being defined or not,
    is fixed by the object's cell and the cell of the table it points to: two
    heaps that agree on these two cells give the same result and the same
    trace, and the call is undefined in one exactly when it is in the other. *)
Theorem pib_init_footprint m m' object :
  objects m !! object = objects m' !! object ->
  (forall o, objects m !! object = Some o ->
     handler_tables m !! handlers o = handler_tables m' !! handlers o) ->
  result_of (pib_init zend_objects_destroy_object object m)
    = result_of (pib_init zend_objects_destroy_object object m')
  /\ trace_of (pib_init zend_objects_destroy_object object m)
    = trace_of (pib_init zend_objects_destroy_object object m').
Proof.
  intros Eo Et.
  unfold pib_init, bind, load_handlers, load_dtor_obj, ret.
  rewrite <- (deref_object_agree m m' object Eo).
  destruct (deref_object m object) as [o|] eqn:Ho; [|split; reflexivity].
  rewrite <- (deref_handlers_agree m m' (handlers o)
                (Et o (deref_object_lookup _ _ _ Ho))).
  destruct (deref_handlers m (handlers o)); split; reflexivity.
Qed.

(** X2: the function checks no liveness: once an object is released, the
    call on its stale handle is undefined, while the check of any other
    valid handle, also of an object that shared the released object's table,
    still gives the comparison on its table. *)
Theorem pib_init_after_release m p q o t :
  valid_handle m q o t ->
  p <> q ->
  pib_init zend_objects_destroy_object p
    (mk_heap (delete p (objects m)) (handler_tables m)) = None
  /\ result_of (pib_init zend_objects_destroy_object q
                  (mk_heap (delete p (objects m)) (handler_tables m)))
     = Some (ptr_ne (dtor_obj t) zend_objects_destroy_object).
Proof.
  intros [Ho Ht] Hpq. split.
  - unfold pib_init, bind, load_handlers, deref_object. cbn [objects].
    destruct (decide (p = NULL)); [reflexivity|].
    now rewrite lookup_delete_eq.
  - rewrite (pib_init_run _ _ q o t); [reflexivity|].
    split; [|exact Ht].
    unfold deref_object in *. cbn [objects].
    destruct (decide (q = NULL)); [discriminate|].
    rewrite lookup_delete_ne by exact Hpq. exact Ho.
Qed.

(** X3: a table is shared, and the check goes through it: when the
    [dtor_obj] slot of a table is overwritten with [d], the next check of
    every object whose [handlers] member points to that table returns
    [d != zend_objects_destroy_object]. *)
Theorem pib_init_shared_table_override m p q o o' t d s :
  valid_handle m p o t ->
  deref_object m q = Some o' ->
  handlers o' = handlers o ->
  result_of (pib_init zend_objects_destroy_object p
               (mk_heap (objects m) (<[handlers o := mk_handlers d s]> (handler_tables m))))
    = Some (ptr_ne d zend_objects_destroy_object)
  /\ result_of (pib_init zend_objects_destroy_object q
               (mk_heap (objects m) (<[handlers o := mk_handlers d s]> (handler_tables m))))
    = Some (ptr_ne d zend_objects_destroy_object).
Proof.
  intros Hv Hq Hsame.
  destruct (valid_handle_nonnull _ _ _ _ Hv) as [_ Hnn].
  destruct Hv as [Ho _].
  assert (Ht' : forall o0, handlers o0 = handlers o ->
            deref_handlers
              (mk_heap (objects m) (<[handlers o := mk_handlers d s]> (handler_tables m)))
              (handlers o0) = Some (mk_handlers d s)).
  { intros o0 ->. unfold deref_handlers. cbn [handler_tables].
    destruct (decide (handlers o = NULL)); [contradiction|].
    apply lookup_insert_eq. }
  split.
  - rewrite (pib_init_run _ _ p o (mk_handlers d s)); [reflexivity|].
    split; [exact Ho | now apply Ht'].
  - rewrite (pib_init_run _ _ q o' (mk_handlers d s)); [reflexivity|].
    split; [exact Hq | now apply Ht'].
Qed.

(** X4: the check follows the object's [handlers] member: when that member
    is set to point to another live table [t'], the other members staying as
    they were, the next check of the object returns the comparison on the
    [dtor_obj] slot of [t'], whatever the slot of the former table. *)
Theorem pib_init_repointed_handlers m p o T' t' :
  deref_object m p = Some o ->
  deref_handlers m T' = Some t' ->
  result_of (pib_init zend_objects_destroy_object p
               (mk_heap (<[p := mk_object T' (other_members o)]> (objects m))
                        (handler_tables m)))
    = Some (ptr_ne (dtor_obj t') zend_objects_destroy_object).
Proof.
  intros Ho Ht.
  rewrite (pib_init_run _ _ p (mk_object T' (other_members o)) t'); [reflexivity|].
  split.
  - unfold deref_object in *. cbn [objects].
    destruct (decide (p = NULL)); [discriminate|].
    apply lookup_insert_eq.
  - exact Ht.
Qed.

End Frame.

(** ** Instances on the concrete runtime *)

Lemma pib_init_footprint_witness :
  objects heap0 !! O1
    = objects (mk_heap (delete O2 (<[O3 := obj5]> (objects heap0)))
                       (<[T_custom := tbl_nodtor]> (handler_tables heap0))) !! O1
  /\ (forall o, objects heap0 !! O1 = Some o ->
        handler_tables heap0 !! handlers o
        = handler_tables (mk_heap (delete O2 (<[O3 := obj5]> (objects heap0)))
                                  (<[T_custom := tbl_nodtor]> (handler_tables heap0)))
            !! handlers o)
  /\ result_of (pib_init std_dtor O1 heap0)
     = result_of (pib_init std_dtor O1
                    (mk_heap (delete O2 (<[O3 := obj5]> (objects heap0)))
                             (<[T_custom := tbl_nodtor]> (handler_tables heap0)))).
Proof.
  assert (Ho : objects heap0 !! O1
    = objects (mk_heap (delete O2 (<[O3 := obj5]> (objects heap0)))
                       (<[T_custom := tbl_nodtor]> (handler_tables heap0))) !! O1)
    by (vm_compute; reflexivity).
  assert (Ht : forall o, objects heap0 !! O1 = Some o ->
        handler_tables heap0 !! handlers o
        = handler_tables (mk_heap (delete O2 (<[O3 := obj5]> (objects heap0)))
                                  (<[T_custom := tbl_nodtor]> (handler_tables heap0)))
            !! handlers o).
  { intros o E. vm_compute in E. injection E as <-. vm_compute. reflexivity. }
  split; [exact Ho | split; [exact Ht|]].
  exact (proj1 (pib_init_footprint std_dtor heap0 _ O1 Ho Ht)).
Defined.

Lemma pib_init_after_release_witness :
  valid_handle heap0 O4 obj4 tbl_std
  /\ O1 <> O4
  /\ pib_init std_dtor O1 (mk_heap (delete O1 (objects heap0)) (handler_tables heap0)) = None
  /\ result_of (pib_init std_dtor O4
                  (mk_heap (delete O1 (objects heap0)) (handler_tables heap0)))
     = Some (ptr_ne (dtor_obj tbl_std) std_dtor).
Proof.
  assert (Hv : valid_handle heap0 O4 obj4 tbl_std) by handle_valid.
  assert (Hne : O1 <> O4) by (vm_compute; discriminate).
  split; [exact Hv | split; [exact Hne|]].
  exact (pib_init_after_release std_dtor heap0 O1 O4 obj4 tbl_std Hv Hne).
Defined.

Lemma pib_init_shared_table_override_witness :
  valid_handle heap0 O1 obj1 tbl_std
  /\ deref_object heap0 O4 = Some obj4
  /\ handlers obj4 = handlers obj1
  /\ result_of (pib_init std_dtor O1 heap0) = Some false
  /\ result_of (pib_init std_dtor O1
       (mk_heap (objects heap0)
                (<[handlers obj1 := mk_handlers custom_dtor 11]> (handler_tables heap0))))
     = Some (ptr_ne custom_dtor std_dtor)
  /\ result_of (pib_init std_dtor O4
       (mk_heap (objects heap0)
                (<[handlers obj1 := mk_handlers custom_dtor 11]> (handler_tables heap0))))
     = Some (ptr_ne custom_dtor std_dtor).
Proof.
  assert (Hv : valid_handle heap0 O1 obj1 tbl_std) by handle_valid.
  assert (Hq : deref_object heap0 O4 = Some obj4) by (vm_compute; reflexivity).
  split; [exact Hv | split; [exact Hq | split; [reflexivity|]]].
  split; [vm_compute; reflexivity|].
  exact (pib_init_shared_table_override std_dtor heap0 O1 O4 obj1 obj4 tbl_std
           custom_dtor 11 Hv Hq eq_refl).
Defined.

Lemma pib_init_repointed_handlers_witness :
  deref_object heap0 O1 = Some obj1
  /\ deref_handlers heap0 T_custom = Some tbl_custom
  /\ result_of (pib_init std_dtor O1
       (mk_heap (<[O1 := mk_object T_custom (other_members obj1)]> (objects heap0))
                (handler_tables heap0)))
     = Some (ptr_ne (dtor_obj tbl_custom) std_dtor).
Proof.
  assert (Ho : deref_object heap0 O1 = Some obj1) by (vm_compute; reflexivity).
  assert (Ht : deref_handlers heap0 T_custom = Some tbl_custom) by (vm_compute; reflexivity).
  split; [exact Ho | split; [exact Ht|]].
  exact (pib_init_repointed_handlers std_dtor heap0 O1 obj1 T_custom tbl_custom Ho Ht).
Defined.

End Zend.
